(** * Strategy registry and linear pipeline: a shallow embedding

    The development follows the Python sources file by file:
    - [factory/strategy_factory.py]: [StrategyFactory_register], [StrategyFactory_create];
    - [pipeline/base.py]: the [PipelineStep] interface, [Pipeline_add_step], [Pipeline_run];
    - [pipeline/steps.py]: [ReadCSVStep_process], [FilterStep_process];
    - [strategies/analysis_one.py]: [AnalysisOneStrategy_init], [AnalysisOneStrategy_execute];
    - [main.py]: [age_greater_than_30] and the state the driver sets up.

    Python code runs against a process state (the class-level registry, the
    files, the standard output) and either returns or raises: it is embedded
    in a state-and-exception monad [M] over the record [world]. *)

From Stdlib Require Import ZArith.
From stdpp Require Import gmap strings list.

Local Open Scope Z_scope.
Local Open Scope string_scope.

(** ** Python values *)

(** Cells of a table: integers, strings, and the marker pandas uses for a
    missing cell. *)
Inductive scalar :=
| SInt (z : Z)
| SStr (s : string)
| SNaN.

(** A [pandas.DataFrame] as far as the program observes it: the column
    labels, in order, and the rows, in order, each row a mapping from column
    label to cell. *)
Record DataFrame := {
  columns : list string;
  rows : list (gmap string scalar)
}.

(** The exceptions the program and the library calls it makes can raise.
    Message texts are kept only where the program builds them itself. *)
Inductive exn :=
| ValueError (msg : string)
| TypeError
| KeyError (key : string)
| FileNotFoundError (filename : string)
| IsADirectoryError (filename : string)
| PermissionError (filename : string)
| UnicodeDecodeError
| EmptyDataError
| ParserError (msg : string).

(** A call either returns a value or raises. *)
Inductive result (A : Type) :=
| Ok (a : A)
| Raise (e : exn).
Arguments Ok {A} a.
Arguments Raise {A} e.

Definition result_map {A B} (f : A -> B) (r : result A) : result B :=
  match r with
  | Ok a => Ok (f a)
  | Raise e => Raise e
  end.

Definition is_Ok {A} (r : result A) : Prop :=
  match r with
  | Ok _ => True
  | Raise _ => False
  end.

(** The objects passed around as arguments and as pipeline data: [None],
    strings, one-argument functions on cells (the [condition_fn]), and data
    frames.  Functions on cells are pure and may raise. *)
Inductive value :=
| VNone
| VStr (s : string)
| VFun (f : scalar -> result bool)
| VDataFrame (df : DataFrame).

(** ** The process state *)

(** The classes a strategy name can be bound to: the abstract base of
    [strategies/base.py] and the concrete class of
    [strategies/analysis_one.py]. *)
Inductive pyclass :=
| AnalysisStrategy
| AnalysisOneStrategy.

#[global] Instance pyclass_eq_dec : EqDecision pyclass.
Proof. solve_decision. Defined.

(** A line written by [print]: a literal, or an f-string made of a literal
    prefix and one interpolated object. *)
Inductive line :=
| Line (text : string)
| LineFmt (prefix : string) (v : value).

(** [_registry] is the class attribute [StrategyFactory._registry]; [files]
    gives, for each path that exists, what [pandas.read_csv] makes of it (a
    frame; the error of the operating system when the path cannot be read;
    the error of the parser when the data cannot be parsed); [stdout] is
    what has been printed so far. *)
Record world := {
  _registry : gmap string pyclass;
  files : gmap string (result DataFrame);
  stdout : list line
}.

Definition M (A : Type) : Type := world -> result A * world.

Definition ret {A} (a : A) : M A := fun w => (Ok a, w).

Definition raise {A} (e : exn) : M A := fun w => (Raise e, w).

Definition bind {A B} (m : M A) (k : A -> M B) : M B :=
  fun w =>
    match m w with
    | (Ok a, w') => k a w'
    | (Raise e, w') => (Raise e, w')
    end.

Definition lift {A} (r : result A) : M A := fun w => (r, w).

#[global] Instance M_ret : MRet M := @ret.
#[global] Instance M_bind : MBind M := fun A B k m => bind m k.

Definition print (l : line) : M unit :=
  fun w =>
    (Ok tt, {| _registry := _registry w; files := files w; stdout := stdout w ++ [l] |}).

(** ** pandas, as far as the program calls it *)

(** What the library does with objects outside the data model (a path that
    is not a string, a column label that is not a string, a [condition_fn]
    that is not a function on cells) is not fixed here: it is left to two
    functions about which nothing is assumed. *)
Record pandas := {
  read_csv_other : value -> result DataFrame;
  getitem_other : DataFrame -> value -> value -> result value
}.

(** [row[c]]: the cell of a row under a column label; a cell the row does
    not hold is a missing value. *)
Definition cell (c : string) (row : gmap string scalar) : scalar :=
  default SNaN (row !! c).

(** [df[c]] for a string label: the column, top to bottom; [KeyError] when
    the frame has no such label. *)
Definition DataFrame_getitem_column (df : DataFrame) (c : string) : result (list scalar) :=
  if bool_decide (c ∈ columns df) then Ok (cell c <$> rows df) else Raise (KeyError c).

(** [series.apply(f)]: [f] on each element in order; the first exception
    ends the call. *)
Fixpoint Series_apply (s : list scalar) (f : scalar -> result bool) : result (list bool) :=
  match s with
  | [] => Ok []
  | x :: s' =>
      match f x with
      | Ok b =>
          match Series_apply s' f with
          | Ok bs => Ok (b :: bs)
          | Raise e => Raise e
          end
      | Raise e => Raise e
      end
  end.

(** The elements of [l] whose position carries [true] in [mask]. *)
Fixpoint select {A} (l : list A) (mask : list bool) : list A :=
  match l, mask with
  | x :: l', b :: mask' => if b then x :: select l' mask' else select l' mask'
  | _, _ => []
  end.

(** [df[key]] for the series [series.apply] returned.  A series of booleans
    is a row mask.  On a column without elements [apply] calls nothing and
    hands back an empty series that is not boolean; indexing with it selects
    an empty list of columns. *)
Definition DataFrame_getitem_mask (df : DataFrame) (mask : list bool) : DataFrame :=
  match mask with
  | [] => {| columns := []; rows := [] |}
  | _ :: _ => {| columns := columns df; rows := select (rows df) mask |}
  end.

(** [pd.read_csv(filepath)]. *)
Definition pd_read_csv (pd : pandas) (filepath : value) : M value :=
  match filepath with
  | VStr path =>
      fun w =>
        match files w !! path with
        | Some r => (result_map VDataFrame r, w)
        | None => (Raise (FileNotFoundError path), w)
        end
  | _ => lift (result_map VDataFrame (read_csv_other pd filepath))
  end.

(** ** pipeline/base.py *)

(** The abstract base class [PipelineStep]: one method, [process]. *)
Class PipelineStep (S : Type) := process : S -> value -> M value.

(** A [Pipeline] object: its attribute [steps]. *)
Record Pipeline (S : Type) := { steps : list S }.
Arguments steps {S} p.

Section PipelineBase.
Context {S : Type} {step_class : PipelineStep S}.

Definition Pipeline_init : Pipeline S := {| steps := [] |}.

Definition Pipeline_add_step (self : Pipeline S) (step : S) : Pipeline S :=
  {| steps := steps self ++ [step] |}.

(** The [for] loop of [run], from the steps still to visit and the
    current [data]. *)
Fixpoint run_loop (todo : list S) (data : value) : M value :=
  match todo with
  | [] => ret data
  | step :: todo' => bind (process step data) (run_loop todo')
  end.

Definition Pipeline_run (self : Pipeline S) : M value :=
  run_loop (steps self) VNone.

(** One invocation of a [process] method, as an observer of [run] sees
    it: which step (its position in [steps]), on which input, in which
    state, and how the call ended. *)
Record call := {
  callee : nat;
  input : value;
  before : world;
  outcome : result value;
  after : world
}.

(** The loop of [run] again, keeping a log of the invocations it makes. *)
Fixpoint run_loop_log (todo : list S) (i : nat) (data : value) (w : world)
  : result value * world * list call :=
  match todo with
  | [] => (Ok data, w, [])
  | step :: todo' =>
      match process step data w with
      | (Ok data', w') =>
          let '(r, w'', log) := run_loop_log todo' (Datatypes.S i) data' w' in
          (r, w'', {| callee := i; input := data; before := w;
                      outcome := Ok data'; after := w' |} :: log)
      | (Raise e, w') =>
          (Raise e, w', [{| callee := i; input := data; before := w;
                            outcome := Raise e; after := w' |}])
      end
  end.

Definition Pipeline_run_log (self : Pipeline S) (w : world)
  : result value * world * list call :=
  run_loop_log (steps self) 0%nat VNone w.

(** What the specification says of [run], as a relation: [threads todo i d
    w log r w'] holds when, from input [d] and state [w], the steps of
    [todo] (at positions [i], [i+1], ...) are invoked one after the other,
    each once, each on the output of the one before, giving the
    invocations [log], the end [r] and the state [w']; a step that raises
    is the last one invoked. *)
Inductive threads : list S -> nat -> value -> world -> list call -> result value -> world -> Prop :=
| threads_done i d w :
    threads [] i d w [] (Ok d) w
| threads_step step todo i d w d' w' log r w'' :
    process step d w = (Ok d', w') ->
    threads todo (Datatypes.S i) d' w' log r w'' ->
    threads (step :: todo) i d w
      ({| callee := i; input := d; before := w; outcome := Ok d'; after := w' |} :: log) r w''
| threads_abort step todo i d w e w' :
    process step d w = (Raise e, w') ->
    threads (step :: todo) i d w
      [{| callee := i; input := d; before := w; outcome := Raise e; after := w' |}] (Raise e) w'.
End PipelineBase.

(** ** pipeline/steps.py *)

(** The two concrete step classes, each with the attributes its [__init__]
    stores. *)
Inductive step :=
| ReadCSVStep (filepath : value)
| FilterStep (column : value) (condition_fn : value).

Section Steps.
Context (pd : pandas).

Definition ReadCSVStep_process (filepath : value) (data : value) : M value :=
  _ ← print (LineFmt "Reading CSV from: " filepath);
  pd_read_csv pd filepath.

(** [data[data[self.column].apply(self.condition_fn)]].  Subscripting
    [None], a string or a function with one of the objects of [value]
    raises [TypeError]. *)
Definition FilterStep_process (column condition_fn : value) (data : value) : M value :=
  _ ← print (LineFmt "Filtering on column: " column);
  match data with
  | VDataFrame df =>
      match column with
      | VStr c =>
          col ← lift (DataFrame_getitem_column df c);
          match condition_fn with
          | VFun f =>
              mask ← lift (Series_apply col f);
              mret (VDataFrame (DataFrame_getitem_mask df mask))
          | _ => lift (getitem_other pd df column condition_fn)
          end
      | _ => lift (getitem_other pd df column condition_fn)
      end
  | _ => raise TypeError
  end.

Definition step_process : PipelineStep step :=
  fun self data =>
    match self with
    | ReadCSVStep filepath => ReadCSVStep_process filepath data
    | FilterStep column condition_fn => FilterStep_process column condition_fn data
    end.
End Steps.

(** ** Errors

    The names the specification gives to the errors of the program. *)
Definition UnknownStrategy (name : string) : exn :=
  ValueError ("Unknown strategy: " ++ name).
Definition ColumnNotFound (column : string) : exn := KeyError column.





(** ** Strategy objects *)

(** An instance of a strategy class: its class and the attribute
    [pipeline] that [__init__] sets. *)
Record strategy := {
  ob_type : pyclass;
  pipeline : Pipeline step
}.

(** Binding of a call's positional and keyword arguments to the named
    parameters of a function, as Python does it: too many positional
    arguments, a keyword that names no parameter or one already given by
    position, and a parameter left without a value are all [TypeError]. *)
Definition bind_params (params : list string) (args : list value)
    (kwargs : gmap string value) : result (list value) :=
  if bool_decide (length args ≤ length params)%nat then
    let rest := drop (length args) params in
    if bool_decide (dom kwargs ⊆ (list_to_set rest : gset string)) then
      match mapM (fun p => kwargs !! p) rest with
      | Some vs => Ok (args ++ vs)%list
      | None => Raise TypeError
      end
    else Raise TypeError
  else Raise TypeError.

(** ** strategies/analysis_one.py *)

(** [AnalysisOneStrategy.__init__(self, filepath, column, condition_fn)]:
    the value it gives to [self.pipeline]. *)
Definition AnalysisOneStrategy_init (args : list value) (kwargs : gmap string value)
    : result (Pipeline step) :=
  match bind_params ["filepath"; "column"; "condition_fn"] args kwargs with
  | Ok [filepath; column; condition_fn] =>
      let pipeline := Pipeline_init in
      let pipeline := Pipeline_add_step pipeline (ReadCSVStep filepath) in
      let pipeline := Pipeline_add_step pipeline (FilterStep column condition_fn) in
      Ok pipeline
  | Ok _ => Raise TypeError
  | Raise e => Raise e
  end.

(** The call of [strategy_cls] on the forwarded arguments: calling a class
    makes an object of that class and runs its [__init__] on the arguments.
    [AnalysisStrategy] has an abstract method and cannot be instantiated. *)
Definition pyclass_call (strategy_cls : pyclass) (args : list value)
    (kwargs : gmap string value) : result strategy :=
  match strategy_cls with
  | AnalysisStrategy => Raise TypeError
  | AnalysisOneStrategy =>
      result_map (fun p => {| ob_type := strategy_cls; pipeline := p |})
        (AnalysisOneStrategy_init args kwargs)
  end.

(** ** factory/strategy_factory.py *)

(** [StrategyFactory.register(name)(strategy_cls)]: the decorator applied to
    a class. *)
Definition StrategyFactory_register (name : string) (strategy_cls : pyclass) : M pyclass :=
  fun w =>
    (Ok strategy_cls,
     {| _registry := <[name := strategy_cls]> (_registry w);
        files := files w; stdout := stdout w |}).

(** [cls._registry.get(name)]. *)
Definition registry_get (name : string) : M (option pyclass) :=
  fun w => (Ok (_registry w !! name), w).

(** [StrategyFactory.create], with its positional and keyword arguments.
    [get] gives [None] for a missing key, and a class object is true, so
    [not strategy_cls] holds exactly when the key is missing. *)
Definition StrategyFactory_create (name : string) (args : list value)
    (kwargs : gmap string value) : M strategy :=
  strategy_cls ← registry_get name;
  match strategy_cls with
  | None => raise (ValueError ("Unknown strategy: " ++ name))
  | Some strategy_cls => lift (pyclass_call strategy_cls args kwargs)
  end.

(** The registry after the registrations [regs], made in that order. *)
Definition register_all (regs : list (string * pyclass)) (w : world) : world :=
  foldl (fun w r => snd (StrategyFactory_register (fst r) (snd r) w)) w regs.

Section Strategies.
Context (pd : pandas).

Definition AnalysisOneStrategy_execute (self : strategy) : M value :=
  _ ← print (Line "Running AnalysisOneStrategy...");
  Pipeline_run (step_class := step_process pd) (pipeline self).

(** [strategy.execute()]: the method of the object's class; the body of
    the abstract one is [pass]. *)
Definition execute (self : strategy) : M value :=
  match ob_type self with
  | AnalysisOneStrategy => AnalysisOneStrategy_execute self
  | AnalysisStrategy => mret VNone
  end.
End Strategies.

(** ** main.py *)

Definition age_greater_than_30 (x : scalar) : result bool :=
  match x with
  | SInt z => Ok (30 <? z)%Z
  | SNaN => Ok false
  | SStr _ => Raise TypeError
  end.

(** [import_all_strategies()] in a process that has not imported the
    modules of the package [strategies] yet, as when [main] calls it:
    importing them runs the decorator of [analysis_one.py].  (Python runs
    a module once; a later call would import nothing and register
    nothing.) *)
Definition import_all_strategies : M unit :=
  _ ← StrategyFactory_register "analysis_one" AnalysisOneStrategy;
  mret tt.

Definition mkrow (name : string) (age salary : Z) : gmap string scalar :=
  {[ "name" := SStr name; "age" := SInt age; "salary" := SInt salary ]}.

(** The frame read back from the file [main] writes. *)
Definition data_csv : DataFrame :=
  {| columns := ["name"; "age"; "salary"];
     rows := [mkrow "Alice" 25 50000; mkrow "Bob" 35 60000; mkrow "Carol" 45 70000] |}.

Definition empty_world : world :=
  {| _registry := ∅; files := ∅; stdout := [] |}.

(** The state in which [main] calls [StrategyFactory.create]: strategies
    imported, [data.csv] written. *)
Definition main_world : world :=
  let w := snd (import_all_strategies empty_world) in
  {| _registry := _registry w; files := <["data.csv" := Ok data_csv]> (files w);
     stdout := stdout w |}.

(** The same state with one more file, which holds nothing to parse. *)
Definition broken_world : world :=
  {| _registry := _registry main_world;
     files := <["empty.csv" := Raise EmptyDataError]> (files main_world);
     stdout := stdout main_world |}.


(** A library whose answers outside the data model are all [TypeError]; any
    other choice would do where a concrete one is needed. *)
Definition pandas_stub : pandas :=
  {| read_csv_other := fun _ => Raise TypeError;
     getitem_other := fun _ _ _ => Raise TypeError |}.

(** The table of the filtering scenario and the rows expected back. *)
Definition person (name : string) (age : Z) : gmap string scalar :=
  {[ "name" := SStr name; "age" := SInt age ]}.

Definition people : DataFrame :=
  {| columns := ["name"; "age"];
     rows := [person "Alice" 25; person "Bob" 35; person "Carol" 45] |}.

(** [holds f x]: the call [f x] returns [True]. *)
Definition holds (f : scalar -> result bool) (x : scalar) : bool :=
  match f x with
  | Ok true => true
  | _ => false
  end.

(** The state [w] after the lines [ls] have been printed. *)
Definition printed (ls : list line) (w : world) : world :=
  {| _registry := _registry w; files := files w; stdout := stdout w ++ ls |}.

(** The line a step of [pipeline/steps.py] prints when it is invoked. *)
Definition step_line (s : step) : line :=
  match s with
  | ReadCSVStep filepath => LineFmt "Reading CSV from: " filepath
  | FilterStep column _ => LineFmt "Filtering on column: " column
  end.

(** The object [AnalysisOneStrategy(filepath, column, condition_fn)]. *)
Definition analysis_one (filepath column condition_fn : value) : strategy :=
  {| ob_type := AnalysisOneStrategy;
     pipeline := {| steps := [ReadCSVStep filepath; FilterStep column condition_fn] |} |}.

(** * Properties *)

(** ** Filtering *)

Lemma Series_apply_Ok (s : list scalar) (f : scalar -> result bool) :
  Forall (fun x => is_Ok (f x)) s -> Series_apply s f = Ok (holds f <$> s).
Proof.
  induction 1 as [|x s Hx _ IH]; simpl; [reflexivity|].
  rewrite IH. unfold holds. destruct (f x) as [[|]|]; simpl in *; tauto || reflexivity.
Qed.

Lemma select_fmap {A} (g : A -> bool) (l : list A) :
  select l (g <$> l) = List.filter g l.
Proof.
  induction l as [|x l IH]; simpl; [reflexivity|].
  destruct (g x); [f_equal|]; exact IH.
Qed.

Lemma filter_sublist {A} (g : A -> bool) (l : list A) :
  List.filter g l `sublist_of` l.
Proof.
  induction l as [|x l IH]; simpl; [constructor|].
  destruct (g x); now constructor.
Qed.

Lemma filter_Forall {A} (g : A -> bool) (l : list A) :
  Forall (fun x => g x = true) (List.filter g l).
Proof.
  apply Forall_forall. intros x Hx.
  apply list_elem_of_In, filter_In in Hx. tauto.
Qed.

Lemma getitem_mask_rows (df : DataFrame) (g : gmap string scalar -> bool) :
  rows (DataFrame_getitem_mask df (g <$> rows df)) = List.filter g (rows df).
Proof.
  unfold DataFrame_getitem_mask.
  destruct (rows df) as [|r l] eqn:E; simpl; [reflexivity|].
  rewrite select_fmap. reflexivity.
Qed.

Lemma holds_true f x : holds f x = true <-> f x = Ok true.
Proof.
  unfold holds. destruct (f x) as [[|]|]; split; congruence.
Qed.

Lemma FilterStep_process_present (pd : pandas) (T : DataFrame) (c : string)
    (p : scalar -> result bool) (w : world) :
  c ∈ columns T ->
  (forall row, row ∈ rows T -> is_Ok (p (cell c row))) ->
  FilterStep_process pd (VStr c) (VFun p) (VDataFrame T) w =
    (Ok (VDataFrame (DataFrame_getitem_mask T ((fun row => holds p (cell c row)) <$> rows T))),
     snd (print (LineFmt "Filtering on column: " (VStr c)) w)).
Proof.
  intros Hc Htot.
  unfold FilterStep_process, mbind, M_bind, bind, lift, DataFrame_getitem_column.
  cbn [print fst snd].
  rewrite bool_decide_eq_true_2 by exact Hc.
  rewrite Series_apply_Ok.
  - rewrite <- list_fmap_compose. reflexivity.
  - apply Forall_fmap, Forall_forall. intros row Hrow. simpl. now apply Htot.
Qed.

(** C1.  For a table [T], a column [c] among its columns and a predicate
    [p] that returns on every value of that column, the filter step
    returns a table: each of its rows satisfies [p] on its cell under [c],
    and its rows are a sublist of the rows of [T], in the same order.  On
    the three-row table of Alice (25), Bob (35) and Carol (45), with
    column ["age"] and the predicate [age > 30], it returns the rows of Bob
    and Carol, in that order. *)
Theorem FilterStep_process_filters :
  (forall (pd : pandas) (T : DataFrame) (c : string) (p : scalar -> result bool) (w : world),
     c ∈ columns T ->
     (forall row, row ∈ rows T -> is_Ok (p (cell c row))) ->
     exists T',
       fst (FilterStep_process pd (VStr c) (VFun p) (VDataFrame T) w) = Ok (VDataFrame T') /\
       Forall (fun row => p (cell c row) = Ok true) (rows T') /\
       rows T' `sublist_of` rows T) /\
  (forall (pd : pandas) (w : world),
     fst (FilterStep_process pd (VStr "age") (VFun age_greater_than_30) (VDataFrame people) w) =
       Ok (VDataFrame {| columns := ["name"; "age"];
                         rows := [person "Bob" 35; person "Carol" 45] |})).
Proof.
  split.
  - intros pd T c p w Hc Htot.
    eexists. rewrite (FilterStep_process_present pd T c p w Hc Htot). simpl.
    split; [reflexivity|].
    rewrite getitem_mask_rows. split.
    + eapply Forall_impl; [apply filter_Forall|].
      intros row Hrow. now apply holds_true.
    + apply filter_sublist.
  - intros pd w.
    rewrite FilterStep_process_present.
    + reflexivity.
    + simpl. set_solver.
    + intros row Hrow. simpl in Hrow.
      repeat (apply elem_of_cons in Hrow as [->|Hrow]); [exact I ..|].
      now apply elem_of_nil in Hrow.
Qed.

(** ** The registry *)

Lemma register_lookup_eq name strategy_cls w :
  _registry (snd (StrategyFactory_register name strategy_cls w)) !! name = Some strategy_cls.
Proof. simpl. apply lookup_insert_eq. Qed.

Lemma register_lookup_ne name name' strategy_cls w :
  name ≠ name' ->
  _registry (snd (StrategyFactory_register name strategy_cls w)) !! name' = _registry w !! name'.
Proof. intros Hne. simpl. now apply lookup_insert_ne. Qed.

Lemma register_all_lookup_None regs w name :
  _registry w !! name = None ->
  name ∉ regs.*1 ->
  _registry (register_all regs w) !! name = None.
Proof.
  revert w. induction regs as [|[n c] regs IH]; intros w Hw Hnot; [exact Hw|].
  change (register_all ((n, c) :: regs) w)
    with (register_all regs (snd (StrategyFactory_register n c w))).
  apply IH.
  - rewrite register_lookup_ne; [exact Hw|].
    intros ->. apply Hnot. left.
  - intros Hin. apply Hnot. now right.
Qed.

Lemma create_lookup_Some name strategy_cls args kwargs w :
  _registry w !! name = Some strategy_cls ->
  StrategyFactory_create name args kwargs w = (pyclass_call strategy_cls args kwargs, w).
Proof.
  intros E. unfold StrategyFactory_create, mbind, M_bind, bind, registry_get.
  rewrite E. reflexivity.
Qed.

Lemma create_lookup_None name args kwargs w :
  _registry w !! name = None ->
  StrategyFactory_create name args kwargs w = (Raise (UnknownStrategy name), w).
Proof.
  intros E. unfold StrategyFactory_create, mbind, M_bind, bind, registry_get.
  rewrite E. reflexivity.
Qed.

(** An object made by calling a class is of that class. *)
Lemma pyclass_call_ob_type strategy_cls args kwargs inst :
  pyclass_call strategy_cls args kwargs = Ok inst -> ob_type inst = strategy_cls.
Proof.
  destruct strategy_cls; simpl; [discriminate|].
  destruct (AnalysisOneStrategy_init args kwargs); simpl; [|discriminate].
  intros [= <-]. reflexivity.
Qed.

(** The constructor of [AnalysisOneStrategy] accepts three positional
    arguments and builds the two-step pipeline from them. *)
Lemma AnalysisOneStrategy_call_three filepath column condition_fn :
  pyclass_call AnalysisOneStrategy [filepath; column; condition_fn] ∅ =
    Ok {| ob_type := AnalysisOneStrategy;
          pipeline := {| steps := [ReadCSVStep filepath; FilterStep column condition_fn] |} |}.
Proof. reflexivity. Qed.

(** C2, as stated, fails: ["analysis_one"] is registered when [main] calls
    [create], yet [create("analysis_one")] with an empty argument list
    returns no instance: the constructor of the registered class raises
    [TypeError] for its three missing arguments. *)
Lemma create_registered_may_raise :
  _registry main_world !! "analysis_one" = Some AnalysisOneStrategy /\
  fst (StrategyFactory_create "analysis_one" [] ∅ main_world) = Raise TypeError /\
  ~ exists inst, fst (StrategyFactory_create "analysis_one" [] ∅ main_world) = Ok inst.
Proof.
  assert (E : fst (StrategyFactory_create "analysis_one" [] ∅ main_world) = Raise TypeError)
    by (vm_compute; reflexivity).
  split; [vm_compute; reflexivity|]. split; [exact E|].
  intros [inst Hinst]. rewrite E in Hinst. discriminate.
Qed.

(** C2, amended.  For a name [n] bound in the registry to a class and for
    every argument list, [create(n, ...)] ends as the call of that class on
    the forwarded arguments ends, and leaves the state as it was: when the
    constructor accepts the arguments, [create] returns the instance it
    made, an instance of exactly the registered class; when the
    constructor raises, [create] raises the same error. *)
Theorem StrategyFactory_create_registered
    (w : world) (n : string) (strategy_cls : pyclass)
    (args : list value) (kwargs : gmap string value) :
  _registry w !! n = Some strategy_cls ->
  StrategyFactory_create n args kwargs w = (pyclass_call strategy_cls args kwargs, w) /\
  (forall inst,
     pyclass_call strategy_cls args kwargs = Ok inst ->
     fst (StrategyFactory_create n args kwargs w) = Ok inst /\ ob_type inst = strategy_cls) /\
  (forall e,
     pyclass_call strategy_cls args kwargs = Raise e ->
     fst (StrategyFactory_create n args kwargs w) = Raise e).
Proof.
  intros E. rewrite (create_lookup_Some _ _ _ _ _ E). simpl.
  split; [reflexivity|]. split.
  - intros inst Hinst. split; [exact Hinst|].
    eapply pyclass_call_ob_type, Hinst.
  - intros e He. exact He.
Qed.

(** C3.  A name that none of the registrations made since the registry was
    empty has bound is unknown to [create]: the call raises the
    [UnknownStrategy] error, built from the requested name, whatever the
    arguments; it returns no object and leaves the state, the registry
    included, as it was.  In particular [create("nonexistent")] raises
    the error for ["nonexistent"]. *)
Theorem StrategyFactory_create_unknown :
  (forall (w0 : world) (regs : list (string * pyclass)) (n : string)
          (args : list value) (kwargs : gmap string value),
     _registry w0 = ∅ ->
     n ∉ regs.*1 ->
     StrategyFactory_create n args kwargs (register_all regs w0) =
       (Raise (UnknownStrategy n), register_all regs w0)) /\
  StrategyFactory_create "nonexistent" [] ∅ main_world =
    (Raise (ValueError "Unknown strategy: nonexistent"), main_world).
Proof.
  split.
  - intros w0 regs n args kwargs Hempty Hn.
    apply create_lookup_None, register_all_lookup_None; [|exact Hn].
    rewrite Hempty. apply lookup_empty.
  - apply (create_lookup_None "nonexistent"). vm_compute. reflexivity.
Qed.

(** C8, as stated, fails: ["analysis_one"] is bound to
    [AnalysisOneStrategy] when the abstract class [AnalysisStrategy] is
    registered under it; the registration raises nothing and overwrites
    the entry, but the [create] that follows, on the three arguments of
    [main], constructs no instance of the class now registered: the
    abstract class cannot be instantiated and the call raises
    [TypeError]. *)
Lemma register_overwrites_create_may_raise :
  let w' := snd (StrategyFactory_register "analysis_one" AnalysisStrategy main_world) in
  _registry main_world !! "analysis_one" = Some AnalysisOneStrategy /\
  fst (StrategyFactory_register "analysis_one" AnalysisStrategy main_world) =
    Ok AnalysisStrategy /\
  _registry w' !! "analysis_one" = Some AnalysisStrategy /\
  fst (StrategyFactory_create "analysis_one"
         [VStr "data.csv"; VStr "age"; VFun age_greater_than_30] ∅ w') = Raise TypeError /\
  ~ exists inst,
      fst (StrategyFactory_create "analysis_one"
             [VStr "data.csv"; VStr "age"; VFun age_greater_than_30] ∅ w') = Ok inst.
Proof.
  cbv zeta.
  assert (E : fst (StrategyFactory_create "analysis_one"
                     [VStr "data.csv"; VStr "age"; VFun age_greater_than_30] ∅
                     (snd (StrategyFactory_register "analysis_one" AnalysisStrategy
                             main_world))) = Raise TypeError)
    by (vm_compute; reflexivity).
  split; [vm_compute; reflexivity|]. split; [reflexivity|].
  split; [vm_compute; reflexivity|]. split; [exact E|].
  intros [inst Hinst]. rewrite E in Hinst. discriminate.
Qed.

(** C8, amended.  Registering a class [B] under a name already bound to a
    class [A] raises nothing: the decorator returns [B], and the entry of
    the name now holds [B], all other entries being as before.  From then
    on [create] on that name calls [B] on the forwarded arguments and
    leaves the state as it was: when the constructor of [B] accepts the
    arguments, [create] returns the instance it made, an instance of
    [B]; when the constructor raises, [create] raises the same error. *)
Theorem StrategyFactory_register_overwrites
    (w : world) (n : string) (A B : pyclass) :
  _registry w !! n = Some A ->
  let w' := snd (StrategyFactory_register n B w) in
  fst (StrategyFactory_register n B w) = Ok B /\
  _registry w' = <[n := B]> (_registry w) /\
  _registry w' !! n = Some B /\
  (forall n', n' ≠ n -> _registry w' !! n' = _registry w !! n') /\
  (forall args kwargs,
     StrategyFactory_create n args kwargs w' = (pyclass_call B args kwargs, w') /\
     (forall inst,
        pyclass_call B args kwargs = Ok inst ->
        fst (StrategyFactory_create n args kwargs w') = Ok inst /\ ob_type inst = B) /\
     (forall e,
        pyclass_call B args kwargs = Raise e ->
        fst (StrategyFactory_create n args kwargs w') = Raise e)).
Proof.
  intros _. cbv zeta.
  assert (E : _registry (snd (StrategyFactory_register n B w)) !! n = Some B)
    by apply register_lookup_eq.
  split; [reflexivity|]. split; [reflexivity|]. split; [exact E|]. split.
  - intros n' Hne. apply register_lookup_ne. congruence.
  - intros args kwargs. rewrite (create_lookup_Some _ _ _ _ _ E). simpl.
    split; [reflexivity|]. split.
    + intros inst Hinst. split; [exact Hinst|].
      eapply pyclass_call_ob_type, Hinst.
    + intros e He. exact He.
Qed.

(** ** The pipeline *)

Section PipelineFacts.
Context {S : Type} {step_class : PipelineStep S}.

(** A pipeline built by adding steps holds them in the order added. *)
Lemma steps_add_all (ss : list S) (p : Pipeline S) :
  steps (foldl Pipeline_add_step p ss) = (steps p ++ ss)%list.
Proof.
  revert p. induction ss as [|s ss IH]; intros p; simpl.
  - now rewrite app_nil_r.
  - rewrite IH. simpl. now rewrite <- app_assoc.
Qed.

(** The log is an observation: dropping it gives the loop of [run]. *)
Lemma run_loop_log_erase (todo : list S) i d w :
  run_loop todo d w = fst (run_loop_log todo i d w).
Proof.
  revert i d w. induction todo as [|s todo IH]; intros i d w; simpl; [reflexivity|].
  unfold bind. destruct (process s d w) as [[d'|e] w1]; [|reflexivity].
  rewrite (IH (Datatypes.S i) d' w1).
  now destruct (run_loop_log todo (Datatypes.S i) d' w1) as [[r w2] log].
Qed.

(** The loop does what the specification says of it. *)
Lemma run_loop_log_threads (todo : list S) i d w :
  threads todo i d w
    (snd (run_loop_log todo i d w))
    (fst (fst (run_loop_log todo i d w)))
    (snd (fst (run_loop_log todo i d w))).
Proof.
  revert i d w. induction todo as [|s todo IH]; intros i d w; simpl.
  - constructor.
  - destruct (process s d w) as [[d'|e] w1] eqn:E.
    + specialize (IH (Datatypes.S i) d' w1).
      destruct (run_loop_log todo (Datatypes.S i) d' w1) as [[r w2] log]. simpl in *.
      eapply threads_step; eassumption.
    + simpl. now apply threads_abort.
Qed.

(** What a log that [threads] accepts looks like. *)

Lemma threads_callee todo i d w log r w' :
  threads todo i d w log r w' -> callee <$> log = seq i (length log).
Proof. induction 1; simpl; [reflexivity| |reflexivity]. now f_equal. Qed.

Lemma threads_length todo i d w log r w' :
  threads todo i d w log r w' -> (length log <= length todo)%nat.
Proof. induction 1; simpl; lia. Qed.

Lemma threads_Ok_length todo i d w log v w' :
  threads todo i d w log (Ok v) w' -> length log = length todo.
Proof.
  intros H. remember (Ok v) as r eqn:Er.
  induction H; simpl; [reflexivity| |discriminate]. f_equal. auto.
Qed.

(** Each logged invocation is the call of the step at that position, on
    the logged input, in the logged state. *)
Lemma threads_process todo i d w log r w' k c :
  threads todo i d w log r w' ->
  log !! k = Some c ->
  exists s, todo !! k = Some s /\ process s (input c) (before c) = (outcome c, after c).
Proof.
  intros H. revert k. induction H; intros k Hk.
  - discriminate.
  - destruct k as [|k]; simpl in Hk.
    + injection Hk as <-. eexists. split; [reflexivity|]. assumption.
    + apply IHthreads in Hk. exact Hk.
  - destruct k as [|k]; simpl in Hk; [|discriminate].
    injection Hk as <-. eexists. split; [reflexivity|]. assumption.
Qed.

(** The first invocation starts from the loop's input and state. *)
Lemma threads_first todo i d w log r w' c :
  threads todo i d w log r w' ->
  log !! 0%nat = Some c -> input c = d /\ before c = w.
Proof. destruct 1; simpl; intros [= <-]; auto. Qed.

(** An invocation that is followed by another one returned, and the next
    one starts from what it returned and from the state it left. *)
Lemma threads_next todo i d w log r w' k c c' :
  threads todo i d w log r w' ->
  log !! k = Some c -> log !! Datatypes.S k = Some c' ->
  outcome c = Ok (input c') /\ before c' = after c.
Proof.
  intros H. revert k. induction H; intros k Hk Hk'.
  - discriminate.
  - destruct k as [|k]; simpl in Hk, Hk'.
    + injection Hk as <-. simpl.
      destruct (threads_first _ _ _ _ _ _ _ _ H0 Hk') as [-> ->]. auto.
    + eapply IHthreads; eassumption.
  - destruct k as [|k]; simpl in Hk'; discriminate.
Qed.

(** The loop ends as its last invocation ended; without invocations it
    returns its input, in the state it started from. *)
Lemma threads_last todo i d w log r w' :
  threads todo i d w log r w' ->
  match last log with
  | Some c => outcome c = r /\ after c = w'
  | None => r = Ok d /\ w' = w
  end.
Proof.
  induction 1; simpl; auto.
  destruct log as [|c log]; simpl in *; [destruct IHthreads as [-> ->]; auto|].
  destruct (last (c :: log)) eqn:El; [exact IHthreads|].
  apply last_None in El. discriminate.
Qed.

(** A log of an aborted loop ends with the invocation that raised. *)
Lemma threads_Raise todo i d w log e w' :
  threads todo i d w log (Raise e) w' ->
  exists c, last log = Some c /\ outcome c = Raise e.
Proof.
  intros H. pose proof (threads_last _ _ _ _ _ _ _ H) as Hl.
  destruct (last log) as [c|]; [|destruct Hl; discriminate].
  exists c. tauto.
Qed.
End PipelineFacts.

(** C4, as stated, fails: in the pipeline made of a filter step followed by
    a source step, the filter step is handed [None] and raises
    [TypeError]; [run] raises with it instead of returning the output of
    the last step, and the source step, at position 1, is never
    invoked. *)
Lemma Pipeline_run_may_abort :
  let p := Pipeline_add_step
             (Pipeline_add_step Pipeline_init
                (FilterStep (VStr "age") (VFun age_greater_than_30)))
             (ReadCSVStep (VStr "data.csv")) in
  fst (Pipeline_run (step_class := step_process pandas_stub) p main_world) = Raise TypeError /\
  callee <$> snd (Pipeline_run_log (step_class := step_process pandas_stub) p main_world) = [0%nat] /\
  ~ exists v, fst (Pipeline_run (step_class := step_process pandas_stub) p main_world) = Ok v.
Proof.
  cbv zeta.
  match goal with |- ?r = _ /\ _ => assert (E : r = Raise TypeError) by (vm_compute; reflexivity) end.
  split; [exact E|]. split; [vm_compute; reflexivity|].
  intros [v Hv]. rewrite E in Hv. discriminate.
Qed.

(** C4, amended.  For the pipeline obtained by adding the steps [ss] one
    after the other, [run] invokes [process] on the steps in the order
    they were added, each at most once: the invocation at position [k] of
    the log is the call of the [k]-th step; the first one is handed [None];
    each further one is handed what the one before returned.  When no
    invocation raises, every step has been invoked exactly once and [run]
    returns what the last one returned ([None] when there is no step).
    When an invocation raises, it is the last one: the steps after it are
    not invoked and [run] raises the same error. *)
Theorem Pipeline_run_threads {S : Type} {step_class : PipelineStep S}
    (ss : list S) (w : world) :
  let p := foldl Pipeline_add_step Pipeline_init ss in
  let r := fst (fst (Pipeline_run_log p w)) in
  let w' := snd (fst (Pipeline_run_log p w)) in
  let log := snd (Pipeline_run_log p w) in
  steps p = ss /\
  Pipeline_run p w = (r, w') /\
  threads ss 0 VNone w log r w' /\
  callee <$> log = seq 0 (length log) /\
  (forall k c, log !! k = Some c ->
     exists s, ss !! k = Some s /\ process s (input c) (before c) = (outcome c, after c)) /\
  (forall c, log !! 0%nat = Some c -> input c = VNone) /\
  (forall k c c', log !! k = Some c -> log !! Datatypes.S k = Some c' ->
     outcome c = Ok (input c')) /\
  (forall v, r = Ok v ->
     length log = length ss /\
     match last log with Some c => outcome c = Ok v | None => v = VNone end) /\
  (forall e, r = Raise e ->
     (length log <= length ss)%nat /\
     exists c, last log = Some c /\ outcome c = Raise e).
Proof.
  cbv zeta.
  assert (Hsteps : steps (foldl Pipeline_add_step Pipeline_init ss) = ss)
    by (rewrite steps_add_all; reflexivity).
  unfold Pipeline_run, Pipeline_run_log. rewrite Hsteps.
  pose proof (run_loop_log_threads ss 0 VNone w) as Ht.
  rewrite (run_loop_log_erase ss 0 VNone w).
  destruct (run_loop_log ss 0 VNone w) as [[r w'] log]. simpl in *.
  split; [reflexivity|]. split; [reflexivity|]. split; [exact Ht|].
  split; [eapply threads_callee, Ht|].
  split; [intros k c; eapply threads_process, Ht|].
  split; [intros c Hc; eapply threads_first; eassumption|].
  split; [intros k c c' Hc Hc'; eapply threads_next; eassumption|].
  split.
  - intros v ->. split; [eapply threads_Ok_length, Ht|].
    pose proof (threads_last _ _ _ _ _ _ _ Ht) as Hl.
    destruct (last log); destruct Hl as [Hl _]; congruence.
  - intros e ->. split; [eapply threads_length, Ht|].
    eapply threads_Raise, Ht.
Qed.

(** C5.  A pipeline to which no step has been added returns [None] from
    [run], invokes nothing and leaves the state as it was. *)
Theorem Pipeline_run_empty {S : Type} {step_class : PipelineStep S} (w : world) :
  Pipeline_run (S := S) Pipeline_init w = (Ok VNone, w) /\
  Pipeline_run_log (S := S) Pipeline_init w = (Ok VNone, w, []).
Proof. split; reflexivity. Qed.

(** ** The steps *)

(** C6.  On a table whose columns do not include the configured column
    [c], the filter step raises the [ColumnNotFound] error ([KeyError] on
    [c]), whatever its [condition_fn]: it returns no table, and the only
    change to the state is the line it printed. *)
Theorem FilterStep_process_column_absent
    (pd : pandas) (T : DataFrame) (c : string) (condition_fn : value) (w : world) :
  c ∉ columns T ->
  FilterStep_process pd (VStr c) condition_fn (VDataFrame T) w =
    (Raise (ColumnNotFound c), snd (print (LineFmt "Filtering on column: " (VStr c)) w)).
Proof.
  intros Hc.
  unfold FilterStep_process, mbind, M_bind, bind, lift, DataFrame_getitem_column.
  cbn [print fst snd].
  rewrite bool_decide_eq_false_2 by exact Hc. reflexivity.
Qed.

Lemma ReadCSVStep_process_unfold (pd : pandas) (path : string) (data : value) (w : world) :
  ReadCSVStep_process pd (VStr path) data w =
    let w' := snd (print (LineFmt "Reading CSV from: " (VStr path)) w) in
    match files w !! path with
    | Some r => (result_map VDataFrame r, w')
    | None => (Raise (FileNotFoundError path), w')
    end.
Proof. reflexivity. Qed.


(** C9.  A source step ends the same way, in the same state, on any two
    inputs: its result does not depend on its input.  When its path
    resolves to a table, that table, as the file holds it at the time of
    the call, is what it returns on either input. *)
Theorem ReadCSVStep_process_ignores_input
    (pd : pandas) (filepath : value) (x y : value) (w : world) :
  ReadCSVStep_process pd filepath x w = ReadCSVStep_process pd filepath y w /\
  (forall path T,
     filepath = VStr path -> files w !! path = Some (Ok T) ->
     fst (ReadCSVStep_process pd filepath x w) = Ok (VDataFrame T) /\
     fst (ReadCSVStep_process pd filepath y w) = Ok (VDataFrame T)).
Proof.
  split; [reflexivity|].
  intros path T -> E. rewrite !ReadCSVStep_process_unfold. cbv zeta.
  rewrite E. split; reflexivity.
Qed.

(** ** The registry is touched by registration only *)

Lemma step_process_registry (pd : pandas) (s : step) (data : value) (w : world) :
  _registry (snd (step_process pd s data w)) = _registry w.
Proof.
  destruct s as [filepath|column condition_fn]; unfold step_process.
  - unfold ReadCSVStep_process, pd_read_csv, mbind, M_bind, bind, lift.
    cbn [print fst snd].
    repeat case_match; reflexivity.
  - unfold FilterStep_process, mbind, M_bind, bind, lift, raise, mret, M_ret, ret.
    cbn [print fst snd].
    repeat case_match; simplify_eq; reflexivity.
Qed.

Lemma run_loop_registry {S : Type} {step_class : PipelineStep S} (todo : list S) :
  (forall s d w, s ∈ todo -> _registry (snd (process s d w)) = _registry w) ->
  forall d w, _registry (snd (run_loop todo d w)) = _registry w.
Proof.
  induction todo as [|s todo IH]; intros Hs d w; simpl; [reflexivity|].
  unfold bind. pose proof (Hs s d w ltac:(left)) as H1.
  destruct (process s d w) as [[d'|e] w1]; simpl in *; [|exact H1].
  rewrite IH; [exact H1|].
  intros s' d0 w0 Hin. apply Hs. now right.
Qed.

Lemma Pipeline_run_registry (pd : pandas) (p : Pipeline step) (w : world) :
  _registry (snd (Pipeline_run (step_class := step_process pd) p w)) = _registry w.
Proof.
  apply (run_loop_registry (step_class := step_process pd)).
  intros s d w0 _. apply step_process_registry.
Qed.

(** C10.  Executing a strategy object leaves the registry as it was, and
    so do the run of its pipeline and each call of [process] on one of
    its steps, whether they return or raise; [create] leaves it as it was
    too.  [register] is the one operation that changes it: it binds the
    name to the class. *)
Theorem execute_preserves_registry (pd : pandas) :
  (forall (self : strategy) (w : world),
     _registry (snd (execute pd self w)) = _registry w) /\
  (forall (p : Pipeline step) (w : world),
     _registry (snd (Pipeline_run (step_class := step_process pd) p w)) = _registry w) /\
  (forall (s : step) (data : value) (w : world),
     _registry (snd (step_process pd s data w)) = _registry w) /\
  (forall n args kwargs (w : world),
     _registry (snd (StrategyFactory_create n args kwargs w)) = _registry w) /\
  (forall n strategy_cls (w : world),
     _registry (snd (StrategyFactory_register n strategy_cls w)) =
       <[n := strategy_cls]> (_registry w)).
Proof.
  split; [|split; [|split; [|split]]].
  - intros self w. unfold execute.
    destruct (ob_type self); [reflexivity|].
    unfold AnalysisOneStrategy_execute, mbind, M_bind, bind.
    cbn [print fst snd].
    rewrite Pipeline_run_registry. reflexivity.
  - apply Pipeline_run_registry.
  - apply step_process_registry.
  - intros n args kwargs w.
    unfold StrategyFactory_create, mbind, M_bind, bind, registry_get.
    destruct (_registry w !! n); reflexivity.
  - reflexivity.
Qed.

(** ** The properties at work on the state [main] sets up *)

Lemma FilterStep_process_filters_witness :
  "age" ∈ columns data_csv /\
  (forall row, row ∈ rows data_csv -> is_Ok (age_greater_than_30 (cell "age" row))) /\
  exists T',
    fst (FilterStep_process pandas_stub (VStr "age") (VFun age_greater_than_30)
           (VDataFrame data_csv) main_world) = Ok (VDataFrame T') /\
    Forall (fun row => age_greater_than_30 (cell "age" row) = Ok true) (rows T') /\
    rows T' `sublist_of` rows data_csv.
Proof.
  assert (Hc : "age" ∈ columns data_csv)
    by (apply (bool_decide_unpack _); vm_compute; exact I).
  assert (Htot : forall row, row ∈ rows data_csv ->
                   is_Ok (age_greater_than_30 (cell "age" row))).
  { apply Forall_forall. repeat (constructor; [vm_compute; exact I|]). constructor. }
  split; [exact Hc|]. split; [exact Htot|].
  exact (proj1 FilterStep_process_filters pandas_stub data_csv "age"
           age_greater_than_30 main_world Hc Htot).
Defined.

Lemma StrategyFactory_create_registered_witness :
  _registry main_world !! "analysis_one" = Some AnalysisOneStrategy /\
  fst (StrategyFactory_create "analysis_one"
         [VStr "data.csv"; VStr "age"; VFun age_greater_than_30] ∅ main_world) =
    Ok {| ob_type := AnalysisOneStrategy;
          pipeline := {| steps := [ReadCSVStep (VStr "data.csv");
                                   FilterStep (VStr "age") (VFun age_greater_than_30)] |} |}.
Proof.
  assert (E : _registry main_world !! "analysis_one" = Some AnalysisOneStrategy)
    by (vm_compute; reflexivity).
  split; [exact E|].
  destruct (StrategyFactory_create_registered main_world "analysis_one" AnalysisOneStrategy
              [VStr "data.csv"; VStr "age"; VFun age_greater_than_30] ∅ E) as (_ & Hok & _).
  apply Hok. reflexivity.
Defined.

Lemma StrategyFactory_create_unknown_witness :
  _registry empty_world = ∅ /\
  ("nonexistent" ∉ [("analysis_one", AnalysisOneStrategy)].*1) /\
  StrategyFactory_create "nonexistent" [VStr "data.csv"] ∅
      (register_all [("analysis_one", AnalysisOneStrategy)] empty_world) =
    (Raise (UnknownStrategy "nonexistent"),
     register_all [("analysis_one", AnalysisOneStrategy)] empty_world).
Proof.
  assert (Hn : "nonexistent" ∉ [("analysis_one", AnalysisOneStrategy)].*1)
    by (apply (bool_decide_unpack _); vm_compute; exact I).
  split; [reflexivity|]. split; [exact Hn|].
  exact (proj1 StrategyFactory_create_unknown empty_world
           [("analysis_one", AnalysisOneStrategy)] "nonexistent" [VStr "data.csv"] ∅
           eq_refl Hn).
Defined.

Lemma Pipeline_run_threads_witness :
  let ss := [ReadCSVStep (VStr "data.csv");
             FilterStep (VStr "age") (VFun age_greater_than_30)] in
  let p := foldl Pipeline_add_step Pipeline_init ss in
  fst (fst (Pipeline_run_log (step_class := step_process pandas_stub) p main_world)) =
    Ok (VDataFrame {| columns := ["name"; "age"; "salary"];
                      rows := [mkrow "Bob" 35 60000; mkrow "Carol" 45 70000] |}) /\
  length (snd (Pipeline_run_log (step_class := step_process pandas_stub) p main_world)) = 2%nat.
Proof.
  cbv zeta.
  match goal with |- ?r = ?v /\ _ => assert (E : r = v) by (vm_compute; reflexivity) end.
  split; [exact E|].
  destruct (Pipeline_run_threads (step_class := step_process pandas_stub)
              [ReadCSVStep (VStr "data.csv");
               FilterStep (VStr "age") (VFun age_greater_than_30)] main_world)
    as (_ & _ & _ & _ & _ & _ & _ & Hok & _).
  exact (proj1 (Hok _ E)).
Defined.

Lemma FilterStep_process_column_absent_witness :
  ("height" ∉ columns data_csv) /\
  fst (FilterStep_process pandas_stub (VStr "height") (VFun age_greater_than_30)
         (VDataFrame data_csv) main_world) = Raise (KeyError "height").
Proof.
  assert (Hc : "height" ∉ columns data_csv)
    by (apply (bool_decide_unpack _); vm_compute; exact I).
  split; [exact Hc|].
  rewrite (FilterStep_process_column_absent pandas_stub data_csv "height"
             (VFun age_greater_than_30) main_world Hc).
  reflexivity.
Defined.


Lemma StrategyFactory_register_overwrites_witness :
  let w := snd (StrategyFactory_register "analysis_one" AnalysisStrategy main_world) in
  let w' := snd (StrategyFactory_register "analysis_one" AnalysisOneStrategy w) in
  _registry w !! "analysis_one" = Some AnalysisStrategy /\
  fst (StrategyFactory_register "analysis_one" AnalysisOneStrategy w) =
    Ok AnalysisOneStrategy /\
  _registry w' !! "analysis_one" = Some AnalysisOneStrategy /\
  fst (StrategyFactory_create "analysis_one"
         [VStr "data.csv"; VStr "age"; VFun age_greater_than_30] ∅ w') =
    Ok (analysis_one (VStr "data.csv") (VStr "age") (VFun age_greater_than_30)) /\
  ob_type (analysis_one (VStr "data.csv") (VStr "age") (VFun age_greater_than_30)) =
    AnalysisOneStrategy.
Proof.
  cbv zeta.
  assert (E : _registry (snd (StrategyFactory_register "analysis_one" AnalysisStrategy
                                main_world)) !! "analysis_one" = Some AnalysisStrategy)
    by (vm_compute; reflexivity).
  split; [exact E|].
  destruct (StrategyFactory_register_overwrites _ "analysis_one"
              AnalysisStrategy AnalysisOneStrategy E) as (H1 & _ & H2 & _ & H3).
  split; [exact H1|]. split; [exact H2|].
  destruct (H3 [VStr "data.csv"; VStr "age"; VFun age_greater_than_30] ∅) as (_ & Hok & _).
  exact (Hok _ (AnalysisOneStrategy_call_three _ _ _)).
Defined.

Lemma ReadCSVStep_process_ignores_input_witness :
  files main_world !! "data.csv" = Some (Ok data_csv) /\
  fst (ReadCSVStep_process pandas_stub (VStr "data.csv") VNone main_world) =
    Ok (VDataFrame data_csv) /\
  fst (ReadCSVStep_process pandas_stub (VStr "data.csv") (VStr "ignored") main_world) =
    Ok (VDataFrame data_csv).
Proof.
  assert (E : files main_world !! "data.csv" = Some (Ok data_csv))
    by (vm_compute; reflexivity).
  split; [exact E|].
  exact (proj2 (ReadCSVStep_process_ignores_input pandas_stub (VStr "data.csv")
                  VNone (VStr "ignored") main_world) "data.csv" data_csv eq_refl E).
Defined.

(** The run of [main]: the strategy made for ["analysis_one"] reads
    [data.csv], keeps the rows of Bob and Carol, and prints its three
    lines. *)
Example analysis_one_on_data_csv :
  exists strategy,
    StrategyFactory_create "analysis_one"
      [VStr "data.csv"; VStr "age"; VFun age_greater_than_30] ∅ main_world =
      (Ok strategy, main_world) /\
    fst (execute pandas_stub strategy main_world) =
      Ok (VDataFrame {| columns := ["name"; "age"; "salary"];
                        rows := [mkrow "Bob" 35 60000; mkrow "Carol" 45 70000] |}) /\
    stdout (snd (execute pandas_stub strategy main_world)) =
      [Line "Running AnalysisOneStrategy...";
       LineFmt "Reading CSV from: " (VStr "data.csv");
       LineFmt "Filtering on column: " (VStr "age")].
Proof.
  eexists. split; [vm_compute; reflexivity|].
  split; vm_compute; reflexivity.
Qed.

(** * Further properties of the code *)

(** ** Shared facts *)

Lemma printed_printed (a b : list line) (w : world) :
  printed b (printed a w) = printed (a ++ b)%list w.
Proof. unfold printed. simpl. now rewrite <- app_assoc. Qed.

Lemma printed_nil (w : world) : printed [] w = w.
Proof. destruct w. unfold printed. simpl. now rewrite app_nil_r. Qed.

Lemma Series_apply_Raise (pre post : list scalar) (x : scalar)
    (f : scalar -> result bool) (e : exn) :
  Forall (fun y => is_Ok (f y)) pre -> f x = Raise e ->
  Series_apply (pre ++ x :: post)%list f = Raise e.
Proof.
  intros Hpre Hx. induction Hpre as [|y pre Hy _ IH]; simpl.
  - now rewrite Hx.
  - destruct (f y); [|contradiction]. now rewrite IH.
Qed.

Lemma select_all {A} (g : A -> bool) (l : list A) :
  Forall (fun x => g x = true) l -> select l (g <$> l) = l.
Proof.
  induction 1 as [|x l Hx _ IH]; simpl; [reflexivity|].
  rewrite Hx. f_equal. exact IH.
Qed.

Lemma filter_filter_andb {A} (g h : A -> bool) (l : list A) :
  List.filter h (List.filter g l) = List.filter (fun x => g x && h x) l.
Proof.
  induction l as [|x l IH]; simpl; [reflexivity|].
  destruct (g x); simpl; [destruct (h x)|]; now rewrite IH.
Qed.

Lemma FilterStep_process_present_world (pd : pandas) (T : DataFrame) (c : string)
    (p : scalar -> result bool) (w : world) :
  c ∈ columns T ->
  (forall row, row ∈ rows T -> is_Ok (p (cell c row))) ->
  FilterStep_process pd (VStr c) (VFun p) (VDataFrame T) w =
    (Ok (VDataFrame (DataFrame_getitem_mask T ((fun row => holds p (cell c row)) <$> rows T))),
     printed [LineFmt "Filtering on column: " (VStr c)] w).
Proof. apply FilterStep_process_present. Qed.

Lemma getitem_mask_columns (df : DataFrame) (g : gmap string scalar -> bool) :
  rows df <> [] -> columns (DataFrame_getitem_mask df (g <$> rows df)) = columns df.
Proof.
  unfold DataFrame_getitem_mask. destruct (rows df); [congruence|reflexivity].
Qed.

Lemma FilterStep_process_column_absent_printed
    (pd : pandas) (T : DataFrame) (c : string) (condition_fn : value) (w : world) :
  c ∉ columns T ->
  FilterStep_process pd (VStr c) condition_fn (VDataFrame T) w =
    (Raise (KeyError c), printed [LineFmt "Filtering on column: " (VStr c)] w).
Proof.
  intros Hc.
  unfold FilterStep_process, mbind, M_bind, bind, lift, DataFrame_getitem_column.
  cbn [print fst snd].
  rewrite bool_decide_eq_false_2 by exact Hc. reflexivity.
Qed.

(** ** pipeline/steps.py: the filter step *)

(** X1.  With the column present and the predicate returning on every
    value of it, the filter step returns exactly the rows on which the
    predicate is true: none of them is dropped, none is repeated or moved;
    a table that has rows keeps its column labels. *)
Theorem FilterStep_process_keeps_exactly
    (pd : pandas) (T : DataFrame) (c : string) (p : scalar -> result bool) (w : world) :
  c ∈ columns T ->
  (forall row, row ∈ rows T -> is_Ok (p (cell c row))) ->
  exists T',
    fst (FilterStep_process pd (VStr c) (VFun p) (VDataFrame T) w) = Ok (VDataFrame T') /\
    rows T' = List.filter (fun row => holds p (cell c row)) (rows T) /\
    (forall row, row ∈ rows T' <-> row ∈ rows T /\ p (cell c row) = Ok true) /\
    (rows T <> [] -> columns T' = columns T).
Proof.
  intros Hc Htot. eexists.
  rewrite (FilterStep_process_present_world pd T c p w Hc Htot). simpl.
  split; [reflexivity|]. rewrite getitem_mask_rows.
  split; [reflexivity|]. split.
  - intros row. rewrite !list_elem_of_In, filter_In, holds_true. reflexivity.
  - apply getitem_mask_columns.
Qed.

(** X2.  When the predicate raises on the value of some row, having
    returned on the rows before it, the filter step raises that error:
    it returns no table, and has printed its line. *)
Theorem FilterStep_process_predicate_raises
    (pd : pandas) (T : DataFrame) (c : string) (p : scalar -> result bool) (w : world)
    (pre post : list (gmap string scalar)) (row : gmap string scalar) (e : exn) :
  c ∈ columns T ->
  rows T = (pre ++ row :: post)%list ->
  (forall r, r ∈ pre -> is_Ok (p (cell c r))) ->
  p (cell c row) = Raise e ->
  FilterStep_process pd (VStr c) (VFun p) (VDataFrame T) w =
    (Raise e, printed [LineFmt "Filtering on column: " (VStr c)] w).
Proof.
  intros Hc Hrows Hpre Hrow.
  unfold FilterStep_process, mbind, M_bind, bind, lift, DataFrame_getitem_column.
  cbn [print fst snd].
  rewrite bool_decide_eq_true_2 by exact Hc.
  rewrite Hrows, fmap_app, fmap_cons.
  rewrite (Series_apply_Raise _ _ _ p e); [reflexivity| |exact Hrow].
  apply Forall_fmap, Forall_forall. exact Hpre.
Qed.

(** X3.  Filtering is idempotent on what it keeps: a table the filter
    step returned, if it has a row, is returned unchanged when the same
    step is applied to it. *)
Theorem FilterStep_process_idempotent
    (pd : pandas) (T T' : DataFrame) (c : string) (p : scalar -> result bool)
    (w w' : world) :
  c ∈ columns T ->
  (forall row, row ∈ rows T -> is_Ok (p (cell c row))) ->
  fst (FilterStep_process pd (VStr c) (VFun p) (VDataFrame T) w) = Ok (VDataFrame T') ->
  rows T' <> [] ->
  fst (FilterStep_process pd (VStr c) (VFun p) (VDataFrame T') w') = Ok (VDataFrame T').
Proof.
  intros Hc Htot HT' Hne.
  rewrite (FilterStep_process_present_world pd T c p w Hc Htot) in HT'. simpl in HT'.
  injection HT' as HT'.
  assert (Hrows : rows T' = List.filter (fun row => holds p (cell c row)) (rows T))
    by (rewrite <- HT'; apply getitem_mask_rows).
  assert (Hcols : columns T' = columns T).
  { rewrite <- HT'. apply getitem_mask_columns.
    intros E. apply Hne. rewrite Hrows, E. reflexivity. }
  assert (Hall : Forall (fun row => holds p (cell c row) = true) (rows T'))
    by (rewrite Hrows; apply filter_Forall).
  rewrite FilterStep_process_present_world.
  - simpl. do 2 f_equal. unfold DataFrame_getitem_mask.
    rewrite (select_all _ _ Hall).
    destruct T' as [cols [|r rs]]; simpl in *; [congruence|reflexivity].
  - rewrite Hcols. exact Hc.
  - intros row Hrow. eapply Forall_forall in Hall; [|exact Hrow].
    apply holds_true in Hall. rewrite Hall. exact I.
Qed.

(** ** pipeline/base.py: composing runs *)

Lemma run_loop_app {S : Type} {step_class : PipelineStep S}
    (a b : list S) (d : value) (w : world) :
  run_loop (a ++ b)%list d w = bind (run_loop a d) (run_loop b) w.
Proof.
  revert d w. induction a as [|s a IH]; intros d w; simpl; [reflexivity|].
  unfold bind. destruct (process s d w) as [[d'|e] w1]; [|reflexivity].
  apply IH.
Qed.

(** X4.  Adding a step to a pipeline puts its processing after the run of
    the pipeline as it was: when that run returns, the new step is
    invoked on what it returned, in the state it left, and its outcome is
    the outcome of the longer run; when that run raises, the longer run
    raises the same error in the same state and the new step is not
    invoked. *)
Theorem Pipeline_run_add_step {S : Type} {step_class : PipelineStep S}
    (p : Pipeline S) (s : S) (w : world) :
  (forall d w', Pipeline_run p w = (Ok d, w') ->
     Pipeline_run (Pipeline_add_step p s) w = process s d w') /\
  (forall e w', Pipeline_run p w = (Raise e, w') ->
     Pipeline_run (Pipeline_add_step p s) w = (Raise e, w') /\
     length (snd (Pipeline_run_log (Pipeline_add_step p s) w)) =
       length (snd (Pipeline_run_log p w))).
Proof.
  unfold Pipeline_run, Pipeline_run_log, Pipeline_add_step. simpl.
  split.
  - intros d w' E. rewrite run_loop_app. unfold bind at 1. rewrite E.
    simpl. unfold bind. destruct (process s d w') as [[d'|e] w1]; reflexivity.
  - intros e w' E. split.
    + rewrite run_loop_app. unfold bind at 1. rewrite E. reflexivity.
    + rewrite (run_loop_log_erase _ 0) in E.
      generalize dependent 0%nat. generalize VNone. revert w.
      induction (steps p) as [|s0 ss IH]; intros w d i E; simpl in *; [discriminate|].
      destruct (process s0 d w) as [[d'|e0] w1]; [|reflexivity].
      specialize (IH w1 d' (Datatypes.S i)).
      destruct (run_loop_log ss (Datatypes.S i) d' w1) as [[r1 w2] l1].
      destruct (run_loop_log (ss ++ [s]) (Datatypes.S i) d' w1) as [[r2 w3] l2].
      simpl in *. f_equal. apply IH. exact E.
Qed.

(** ** Steps in a pipeline *)

Lemma step_process_printed (pd : pandas) (s : step) (d : value) (w : world) :
  snd (step_process pd s d w) = printed [step_line s] w.
Proof.
  destruct s as [filepath|column condition_fn]; unfold step_process.
  - unfold ReadCSVStep_process, pd_read_csv, mbind, M_bind, bind, lift.
    cbn [print fst snd].
    repeat case_match; reflexivity.
  - unfold FilterStep_process, mbind, M_bind, bind, lift, raise, mret, M_ret, ret.
    cbn [print fst snd].
    repeat case_match; simplify_eq; reflexivity.
Qed.

Lemma run_loop_log_printed (pd : pandas) (ss : list step) (i : nat) (d : value) (w : world) :
  snd (fst (run_loop_log (step_class := step_process pd) ss i d w)) =
    printed (step_line <$>
               take (length (snd (run_loop_log (step_class := step_process pd) ss i d w))) ss) w.
Proof.
  revert i d w. induction ss as [|s ss IH]; intros i d w; simpl.
  - now rewrite printed_nil.
  - pose proof (step_process_printed pd s d w) as Hs.
    unfold process. destruct (step_process pd s d w) as [[d'|e] w1]; simpl in Hs; subst w1.
    + specialize (IH (Datatypes.S i) d' (printed [step_line s] w)).
      destruct (run_loop_log ss (Datatypes.S i) d' (printed [step_line s] w)) as [[r w2] log].
      simpl in *. rewrite IH, printed_printed. reflexivity.
    + reflexivity.
Qed.

(** X5.  A run of a pipeline of source and filter steps changes nothing
    but the standard output: the registry and the files are as before,
    and what was printed is extended by one line for each step invoked, in
    order, the line of that step.  When the run returns, that is one line
    for every step of the pipeline. *)
Theorem Pipeline_run_prints_invoked (pd : pandas) (p : Pipeline step) (w : world) :
  let k := length (snd (Pipeline_run_log (step_class := step_process pd) p w)) in
  let w' := snd (Pipeline_run (step_class := step_process pd) p w) in
  w' = printed (step_line <$> take k (steps p)) w /\
  files w' = files w /\
  _registry w' = _registry w /\
  (is_Ok (fst (Pipeline_run (step_class := step_process pd) p w)) ->
   stdout w' = (stdout w ++ (step_line <$> steps p))%list).
Proof.
  cbv zeta. unfold Pipeline_run, Pipeline_run_log.
  pose proof (run_loop_log_printed pd (steps p) 0 VNone w) as Hw.
  pose proof (run_loop_log_threads (step_class := step_process pd) (steps p) 0 VNone w) as Ht.
  rewrite (run_loop_log_erase (step_class := step_process pd) (steps p) 0 VNone w).
  destruct (run_loop_log (steps p) 0 VNone w) as [[r w'] log]. simpl in *.
  subst w'. split; [reflexivity|]. split; [reflexivity|]. split; [reflexivity|].
  intros Hok. destruct r as [v|e]; [|contradiction].
  rewrite (threads_Ok_length _ _ _ _ _ _ _ Ht), firstn_all. reflexivity.
Qed.

(** X6.  A pipeline whose first step is a filter step cannot run: the
    filter step is handed [None] and raises [TypeError], whatever the
    state, its configuration and the steps after it; only its line has
    been printed. *)
Theorem Pipeline_run_filter_first
    (pd : pandas) (column condition_fn : value) (rest : list step) (w : world) :
  Pipeline_run (step_class := step_process pd)
    {| steps := FilterStep column condition_fn :: rest |} w =
    (Raise TypeError, printed [LineFmt "Filtering on column: " column] w) /\
  length (snd (Pipeline_run_log (step_class := step_process pd)
                 {| steps := FilterStep column condition_fn :: rest |} w)) = 1%nat.
Proof. split; reflexivity. Qed.

(** ** strategies/analysis_one.py: running the strategy *)

Lemma run_loop_cons {S : Type} {step_class : PipelineStep S}
    (s : S) (ss : list S) (d : value) (w : world) :
  run_loop (s :: ss) d w =
    match process s d w with
    | (Ok d', w') => run_loop ss d' w'
    | (Raise e, w') => (Raise e, w')
    end.
Proof. reflexivity. Qed.

Lemma ReadCSVStep_process_printed (pd : pandas) (path : string) (d : value) (w : world) :
  ReadCSVStep_process pd (VStr path) d w =
    (match files w !! path with
     | Some r => result_map VDataFrame r
     | None => Raise (FileNotFoundError path)
     end,
     printed [LineFmt "Reading CSV from: " (VStr path)] w).
Proof.
  rewrite ReadCSVStep_process_unfold. cbv zeta.
  destruct (files w !! path); reflexivity.
Qed.

Lemma execute_analysis_one (pd : pandas) (filepath column condition_fn : value) (w : world) :
  execute pd (analysis_one filepath column condition_fn) w =
    run_loop (step_class := step_process pd)
      [ReadCSVStep filepath; FilterStep column condition_fn] VNone
      (printed [Line "Running AnalysisOneStrategy..."] w).
Proof. reflexivity. Qed.

Lemma execute_analysis_one_Ok (pd : pandas) (path c : string)
    (p : scalar -> result bool) (T : DataFrame) (w : world) :
  files w !! path = Some (Ok T) ->
  c ∈ columns T ->
  (forall row, row ∈ rows T -> is_Ok (p (cell c row))) ->
  execute pd (analysis_one (VStr path) (VStr c) (VFun p)) w =
    (Ok (VDataFrame (DataFrame_getitem_mask T ((fun row => holds p (cell c row)) <$> rows T))),
     printed [Line "Running AnalysisOneStrategy...";
              LineFmt "Reading CSV from: " (VStr path);
              LineFmt "Filtering on column: " (VStr c)] w).
Proof.
  intros Hfile Hc Htot.
  rewrite execute_analysis_one, run_loop_cons.
  unfold process, step_process at 1.
  rewrite ReadCSVStep_process_printed. cbn [files printed]. rewrite Hfile.
  cbn [result_map]. rewrite run_loop_cons.
  unfold process, step_process at 1.
  rewrite (FilterStep_process_present_world pd T c p _ Hc Htot).
  rewrite !printed_printed. reflexivity.
Qed.

(** X7.  Created under a name bound to [AnalysisOneStrategy] with a path
    that resolves to a table, a column of that table and a predicate that
    returns on its values, the strategy executes to exactly the rows of
    the file on which the predicate is true, in file order; [create]
    changes nothing, and [execute] prints its three lines, in order, and
    changes nothing else. *)
Theorem create_then_execute_filters_file
    (pd : pandas) (n path c : string) (p : scalar -> result bool)
    (T : DataFrame) (w : world) :
  _registry w !! n = Some AnalysisOneStrategy ->
  files w !! path = Some (Ok T) ->
  c ∈ columns T ->
  (forall row, row ∈ rows T -> is_Ok (p (cell c row))) ->
  exists strategy T',
    StrategyFactory_create n [VStr path; VStr c; VFun p] ∅ w = (Ok strategy, w) /\
    execute pd strategy w =
      (Ok (VDataFrame T'),
       printed [Line "Running AnalysisOneStrategy...";
                LineFmt "Reading CSV from: " (VStr path);
                LineFmt "Filtering on column: " (VStr c)] w) /\
    rows T' = List.filter (fun row => holds p (cell c row)) (rows T).
Proof.
  intros Hreg Hfile Hc Htot.
  exists (analysis_one (VStr path) (VStr c) (VFun p)). eexists.
  split; [|split].
  - rewrite (create_lookup_Some _ _ _ _ _ Hreg). reflexivity.
  - exact (execute_analysis_one_Ok pd path c p T w Hfile Hc Htot).
  - apply getitem_mask_rows.
Qed.

(** X8.  How a run of the strategy fails.  A path that resolves to no
    data: [FileNotFoundError] on that path, after the first two lines;
    data the parser rejects: the parser's error, after the same two
    lines; in both cases the filter step is not reached.  A table without
    the configured column: [KeyError] on the column, after all three
    lines. *)
Theorem execute_analysis_one_errors
    (pd : pandas) (path : string) (column condition_fn : value) (w : world) :
  (files w !! path = None ->
   execute pd (analysis_one (VStr path) column condition_fn) w =
     (Raise (FileNotFoundError path),
      printed [Line "Running AnalysisOneStrategy...";
               LineFmt "Reading CSV from: " (VStr path)] w)) /\
  (forall e, files w !! path = Some (Raise e) ->
   execute pd (analysis_one (VStr path) column condition_fn) w =
     (Raise e,
      printed [Line "Running AnalysisOneStrategy...";
               LineFmt "Reading CSV from: " (VStr path)] w)) /\
  (forall T c, files w !! path = Some (Ok T) -> column = VStr c -> c ∉ columns T ->
   execute pd (analysis_one (VStr path) column condition_fn) w =
     (Raise (KeyError c),
      printed [Line "Running AnalysisOneStrategy...";
               LineFmt "Reading CSV from: " (VStr path);
               LineFmt "Filtering on column: " (VStr c)] w)).
Proof.
  split; [|split].
  - intros Hfile. rewrite execute_analysis_one, run_loop_cons.
    unfold process, step_process at 1.
    rewrite ReadCSVStep_process_printed. cbn [files printed]. rewrite Hfile.
    rewrite !printed_printed. reflexivity.
  - intros e Hfile. rewrite execute_analysis_one, run_loop_cons.
    unfold process, step_process at 1.
    rewrite ReadCSVStep_process_printed. cbn [files printed]. rewrite Hfile.
    rewrite !printed_printed. reflexivity.
  - intros T c Hfile -> Hc. rewrite execute_analysis_one, run_loop_cons.
    unfold process, step_process at 1.
    rewrite ReadCSVStep_process_printed. cbn [files printed]. rewrite Hfile.
    cbn [result_map]. rewrite run_loop_cons.
    unfold process, step_process at 1.
    rewrite (FilterStep_process_column_absent_printed pd T c condition_fn _ Hc).
    rewrite !printed_printed. reflexivity.
Qed.

(** ** strategies/analysis_one.py: the constructor *)

Lemma bind_params_prefix params args kwargs vs :
  bind_params params args kwargs = Ok vs -> args `prefix_of` vs.
Proof.
  unfold bind_params. repeat case_match; try discriminate.
  intros [= <-]. now apply prefix_app_r.
Qed.

(** X9.  [AnalysisOneStrategy] takes exactly three arguments: called on
    positional arguments alone it returns an object exactly when there
    are three of them, and raises [TypeError] otherwise.  However it is
    called, the object it returns holds a pipeline of two steps, a source
    step followed by a filter step, configured from the arguments, the
    positional ones first. *)
Theorem AnalysisOneStrategy_takes_three :
  (forall args,
     (length args = 3%nat -> is_Ok (pyclass_call AnalysisOneStrategy args ∅)) /\
     (length args <> 3%nat -> pyclass_call AnalysisOneStrategy args ∅ = Raise TypeError)) /\
  (forall args kwargs inst,
     pyclass_call AnalysisOneStrategy args kwargs = Ok inst ->
     exists filepath column condition_fn,
       inst = analysis_one filepath column condition_fn /\
       args `prefix_of` [filepath; column; condition_fn]).
Proof.
  split.
  - intros args. split.
    + intros Hlen. destruct args as [|a [|b [|c [|d args]]]]; try discriminate.
      exact I.
    + intros Hlen. destruct args as [|a [|b [|c [|d args]]]];
        [reflexivity|reflexivity|reflexivity|simpl in Hlen; congruence|].
      unfold pyclass_call, AnalysisOneStrategy_init, bind_params.
      rewrite bool_decide_eq_false_2; [reflexivity|]. simpl. lia.
  - intros args kwargs inst. unfold pyclass_call, AnalysisOneStrategy_init.
    destruct (bind_params _ args kwargs) as [vs|e] eqn:E; [|discriminate].
    apply bind_params_prefix in E.
    destruct vs as [|a [|b [|c [|d vs]]]]; try discriminate.
    intros [= <-]. exists a, b, c. split; [reflexivity|exact E].
Qed.

(** X10.  [create] forwards keyword arguments as it forwards positional
    ones: under a name bound to [AnalysisOneStrategy], the three
    parameters may be given by position, by keyword or by a mix, and the
    same object results.  A parameter given both ways, and a keyword that
    names no parameter, make the constructor, and so [create], raise
    [TypeError]. *)
Theorem StrategyFactory_create_keywords
    (n : string) (filepath column condition_fn : value) (w : world) :
  _registry w !! n = Some AnalysisOneStrategy ->
  let made := (Ok (analysis_one filepath column condition_fn), w) in
  StrategyFactory_create n [filepath; column; condition_fn] ∅ w = made /\
  StrategyFactory_create n [filepath; column] {[ "condition_fn" := condition_fn ]} w = made /\
  StrategyFactory_create n [filepath]
    {[ "column" := column; "condition_fn" := condition_fn ]} w = made /\
  StrategyFactory_create n []
    {[ "filepath" := filepath; "column" := column; "condition_fn" := condition_fn ]} w = made /\
  StrategyFactory_create n [filepath]
    {[ "filepath" := filepath; "column" := column; "condition_fn" := condition_fn ]} w =
    (Raise TypeError, w) /\
  StrategyFactory_create n [filepath; column; condition_fn] {[ "extra" := VNone ]} w =
    (Raise TypeError, w).
Proof.
  intros Hreg. cbv zeta.
  rewrite !(create_lookup_Some _ _ _ _ _ Hreg).
  repeat split; vm_compute; reflexivity.
Qed.

(** ** factory/strategy_factory.py: registrations *)

(** X11.  After a sequence of registrations the registry binds a name to
    the class of the last registration made under that name; a name
    under which none was made is bound as it was before. *)
Theorem register_all_last_wins (regs : list (string * pyclass)) (w : world) (n : string) :
  _registry (register_all regs w) !! n =
    match last (filter (fun r => r.1 = n) regs) with
    | Some r => Some r.2
    | None => _registry w !! n
    end.
Proof.
  induction regs as [|[n' c] regs IH] using rev_ind; [reflexivity|].
  unfold register_all in *. rewrite foldl_app. simpl.
  rewrite filter_app. rewrite lookup_insert.
  destruct (decide (n' = n)) as [->|Hne].
  - rewrite filter_cons_True by reflexivity.
    rewrite filter_nil, last_snoc. reflexivity.
  - rewrite filter_cons_False by (simpl; congruence).
    rewrite filter_nil, app_nil_r. exact IH.
Qed.

(** X12.  [create] reads one entry of the registry and writes nothing:
    its outcome is the same in any two states that agree on the entry of
    the requested name, and it leaves the whole state as it found it.  In
    particular a registration under another name does not change what
    [create] gives. *)
Theorem StrategyFactory_create_reads_one_entry
    (n : string) (args : list value) (kwargs : gmap string value) (w1 w2 : world) :
  _registry w1 !! n = _registry w2 !! n ->
  fst (StrategyFactory_create n args kwargs w1) = fst (StrategyFactory_create n args kwargs w2) /\
  snd (StrategyFactory_create n args kwargs w1) = w1 /\
  (forall n' strategy_cls, n' <> n ->
     fst (StrategyFactory_create n args kwargs
            (snd (StrategyFactory_register n' strategy_cls w1))) =
     fst (StrategyFactory_create n args kwargs w1)).
Proof.
  intros Heq.
  assert (Hcreate : forall w, StrategyFactory_create n args kwargs w =
            (match _registry w !! n with
             | Some strategy_cls => pyclass_call strategy_cls args kwargs
             | None => Raise (UnknownStrategy n)
             end, w)).
  { intros w. destruct (_registry w !! n) eqn:E.
    - now apply create_lookup_Some.
    - now apply create_lookup_None. }
  rewrite !Hcreate. simpl. split; [now rewrite Heq|]. split; [reflexivity|].
  intros n' strategy_cls Hne. rewrite Hcreate. simpl.
  now rewrite lookup_insert_ne.
Qed.

(** ** Chaining filter steps *)

(** X15.  A source step followed by two filter steps returns the rows of
    the file on which both predicates are true, in file order; the two
    filter steps may be exchanged without changing the rows returned.
    (The file has a row, both columns are columns of it, and each
    predicate returns on every value of its column.) *)
Theorem Pipeline_run_two_filters
    (pd : pandas) (path c1 c2 : string) (p1 p2 : scalar -> result bool)
    (T : DataFrame) (w : world) :
  files w !! path = Some (Ok T) ->
  rows T <> [] ->
  c1 ∈ columns T -> c2 ∈ columns T ->
  (forall row, row ∈ rows T -> is_Ok (p1 (cell c1 row))) ->
  (forall row, row ∈ rows T -> is_Ok (p2 (cell c2 row))) ->
  exists T12 T21,
    fst (Pipeline_run (step_class := step_process pd)
           {| steps := [ReadCSVStep (VStr path);
                        FilterStep (VStr c1) (VFun p1);
                        FilterStep (VStr c2) (VFun p2)] |} w) = Ok (VDataFrame T12) /\
    fst (Pipeline_run (step_class := step_process pd)
           {| steps := [ReadCSVStep (VStr path);
                        FilterStep (VStr c2) (VFun p2);
                        FilterStep (VStr c1) (VFun p1)] |} w) = Ok (VDataFrame T21) /\
    rows T12 =
      List.filter (fun row => holds p1 (cell c1 row) && holds p2 (cell c2 row)) (rows T) /\
    rows T21 = rows T12.
Proof.
  intros Hfile Hne Hc1 Hc2 Htot1 Htot2.
  assert (Hrun : forall ca cb pa pb,
            ca ∈ columns T -> cb ∈ columns T ->
            (forall row, row ∈ rows T -> is_Ok (pa (cell ca row))) ->
            (forall row, row ∈ rows T -> is_Ok (pb (cell cb row))) ->
            exists T',
              fst (Pipeline_run (step_class := step_process pd)
                     {| steps := [ReadCSVStep (VStr path);
                                  FilterStep (VStr ca) (VFun pa);
                                  FilterStep (VStr cb) (VFun pb)] |} w) = Ok (VDataFrame T') /\
              rows T' =
                List.filter (fun row => holds pa (cell ca row) && holds pb (cell cb row))
                  (rows T)).
  { intros ca cb pa pb Hca Hcb Hta Htb.
    set (Ta := DataFrame_getitem_mask T ((fun row => holds pa (cell ca row)) <$> rows T)).
    assert (Hrows : rows Ta = List.filter (fun row => holds pa (cell ca row)) (rows T))
      by apply getitem_mask_rows.
    assert (Hcols : columns Ta = columns T) by now apply getitem_mask_columns.
    assert (Htb' : forall row, row ∈ rows Ta -> is_Ok (pb (cell cb row))).
    { intros row Hrow. apply Htb. rewrite Hrows in Hrow.
      apply list_elem_of_In, filter_In in Hrow. now apply list_elem_of_In. }
    assert (Hcb' : cb ∈ columns Ta) by now rewrite Hcols.
    eexists. unfold Pipeline_run. cbn [steps].
    rewrite run_loop_cons. unfold process, step_process at 1.
    rewrite ReadCSVStep_process_printed, Hfile. cbn [result_map].
    rewrite run_loop_cons. unfold process, step_process at 1.
    rewrite (FilterStep_process_present_world pd T ca pa _ Hca Hta). fold Ta.
    rewrite run_loop_cons. unfold process, step_process at 1.
    rewrite (FilterStep_process_present_world pd Ta cb pb _ Hcb' Htb').
    cbn [run_loop ret fst]. split; [reflexivity|].
    rewrite getitem_mask_rows, Hrows. apply filter_filter_andb. }
  destruct (Hrun c1 c2 p1 p2 Hc1 Hc2 Htot1 Htot2) as (T12 & H12 & Hr12).
  destruct (Hrun c2 c1 p2 p1 Hc2 Hc1 Htot2 Htot1) as (T21 & H21 & Hr21).
  exists T12, T21. split; [exact H12|]. split; [exact H21|]. split; [exact Hr12|].
  rewrite Hr12, Hr21. apply filter_ext. intros row. apply andb_comm.
Qed.

(** ** The further properties at work on the state [main] sets up *)

Lemma data_csv_has_age : "age" ∈ columns data_csv.
Proof. apply (bool_decide_unpack _). vm_compute. exact I. Defined.

Lemma data_csv_has_name : "name" ∈ columns data_csv.
Proof. apply (bool_decide_unpack _). vm_compute. exact I. Defined.

Lemma data_csv_has_salary : "salary" ∈ columns data_csv.
Proof. apply (bool_decide_unpack _). vm_compute. exact I. Defined.

Lemma data_csv_age_numeric :
  forall row, row ∈ rows data_csv -> is_Ok (age_greater_than_30 (cell "age" row)).
Proof.
  apply Forall_forall. repeat (constructor; [vm_compute; exact I|]). constructor.
Defined.

Lemma data_csv_salary_numeric :
  forall row, row ∈ rows data_csv -> is_Ok (age_greater_than_30 (cell "salary" row)).
Proof.
  apply Forall_forall. repeat (constructor; [vm_compute; exact I|]). constructor.
Defined.

Lemma main_world_data_csv : files main_world !! "data.csv" = Some (Ok data_csv).
Proof. vm_compute. reflexivity. Defined.

Lemma main_world_analysis_one :
  _registry main_world !! "analysis_one" = Some AnalysisOneStrategy.
Proof. vm_compute. reflexivity. Defined.

Lemma FilterStep_process_keeps_exactly_witness :
  exists T',
    fst (FilterStep_process pandas_stub (VStr "age") (VFun age_greater_than_30)
           (VDataFrame data_csv) main_world) = Ok (VDataFrame T') /\
    rows T' = List.filter (fun row => holds age_greater_than_30 (cell "age" row))
                (rows data_csv) /\
    (forall row, row ∈ rows T' <->
                 row ∈ rows data_csv /\ age_greater_than_30 (cell "age" row) = Ok true) /\
    (rows data_csv <> [] -> columns T' = columns data_csv).
Proof.
  exact (FilterStep_process_keeps_exactly pandas_stub data_csv "age" age_greater_than_30
           main_world data_csv_has_age data_csv_age_numeric).
Defined.

Lemma FilterStep_process_predicate_raises_witness :
  rows data_csv = ([] ++ mkrow "Alice" 25 50000 ::
                     [mkrow "Bob" 35 60000; mkrow "Carol" 45 70000])%list /\
  age_greater_than_30 (cell "name" (mkrow "Alice" 25 50000)) = Raise TypeError /\
  fst (FilterStep_process pandas_stub (VStr "name") (VFun age_greater_than_30)
         (VDataFrame data_csv) main_world) = Raise TypeError.
Proof.
  assert (Hrow : age_greater_than_30 (cell "name" (mkrow "Alice" 25 50000)) = Raise TypeError)
    by (vm_compute; reflexivity).
  split; [reflexivity|]. split; [exact Hrow|].
  rewrite (FilterStep_process_predicate_raises pandas_stub data_csv "name"
             age_greater_than_30 main_world []
             [mkrow "Bob" 35 60000; mkrow "Carol" 45 70000] (mkrow "Alice" 25 50000)
             TypeError data_csv_has_name eq_refl).
  - reflexivity.
  - intros r Hr. now apply elem_of_nil in Hr.
  - exact Hrow.
Defined.

Lemma FilterStep_process_idempotent_witness :
  let kept := {| columns := ["name"; "age"; "salary"];
                 rows := [mkrow "Bob" 35 60000; mkrow "Carol" 45 70000] |} in
  fst (FilterStep_process pandas_stub (VStr "age") (VFun age_greater_than_30)
         (VDataFrame data_csv) main_world) = Ok (VDataFrame kept) /\
  fst (FilterStep_process pandas_stub (VStr "age") (VFun age_greater_than_30)
         (VDataFrame kept) empty_world) = Ok (VDataFrame kept).
Proof.
  cbv zeta.
  match goal with |- ?r = ?v /\ _ => assert (E : r = v) by (vm_compute; reflexivity) end.
  split; [exact E|].
  apply (FilterStep_process_idempotent pandas_stub data_csv _ "age" age_greater_than_30
           main_world empty_world data_csv_has_age data_csv_age_numeric E).
  discriminate.
Defined.

Lemma create_then_execute_filters_file_witness :
  exists strategy T',
    StrategyFactory_create "analysis_one"
      [VStr "data.csv"; VStr "age"; VFun age_greater_than_30] ∅ main_world =
      (Ok strategy, main_world) /\
    execute pandas_stub strategy main_world =
      (Ok (VDataFrame T'),
       printed [Line "Running AnalysisOneStrategy...";
                LineFmt "Reading CSV from: " (VStr "data.csv");
                LineFmt "Filtering on column: " (VStr "age")] main_world) /\
    rows T' = List.filter (fun row => holds age_greater_than_30 (cell "age" row))
                (rows data_csv).
Proof.
  exact (create_then_execute_filters_file pandas_stub "analysis_one" "data.csv" "age"
           age_greater_than_30 data_csv main_world
           main_world_analysis_one main_world_data_csv
           data_csv_has_age data_csv_age_numeric).
Defined.

Lemma StrategyFactory_create_keywords_witness :
  StrategyFactory_create "analysis_one" [VStr "data.csv"]
    {[ "column" := VStr "age"; "condition_fn" := VFun age_greater_than_30 ]} main_world =
    (Ok (analysis_one (VStr "data.csv") (VStr "age") (VFun age_greater_than_30)), main_world).
Proof.
  destruct (StrategyFactory_create_keywords "analysis_one" (VStr "data.csv") (VStr "age")
              (VFun age_greater_than_30) main_world main_world_analysis_one)
    as (_ & _ & H & _).
  exact H.
Defined.

Lemma StrategyFactory_create_reads_one_entry_witness :
  _registry main_world !! "analysis_one" = _registry broken_world !! "analysis_one" /\
  fst (StrategyFactory_create "analysis_one" [VStr "data.csv"] ∅ main_world) =
    fst (StrategyFactory_create "analysis_one" [VStr "data.csv"] ∅ broken_world).
Proof.
  split; [reflexivity|].
  exact (proj1 (StrategyFactory_create_reads_one_entry "analysis_one" [VStr "data.csv"] ∅
                  main_world broken_world eq_refl)).
Defined.

Lemma Pipeline_run_two_filters_witness :
  rows data_csv <> [] /\
  exists T12 T21,
    fst (Pipeline_run (step_class := step_process pandas_stub)
           {| steps := [ReadCSVStep (VStr "data.csv");
                        FilterStep (VStr "age") (VFun age_greater_than_30);
                        FilterStep (VStr "salary") (VFun age_greater_than_30)] |}
           main_world) = Ok (VDataFrame T12) /\
    fst (Pipeline_run (step_class := step_process pandas_stub)
           {| steps := [ReadCSVStep (VStr "data.csv");
                        FilterStep (VStr "salary") (VFun age_greater_than_30);
                        FilterStep (VStr "age") (VFun age_greater_than_30)] |}
           main_world) = Ok (VDataFrame T21) /\
    rows T12 =
      List.filter (fun row => holds age_greater_than_30 (cell "age" row) &&
                              holds age_greater_than_30 (cell "salary" row))
        (rows data_csv) /\
    rows T21 = rows T12.
Proof.
  assert (Hne : rows data_csv <> []) by discriminate.
  split; [exact Hne|].
  exact (Pipeline_run_two_filters pandas_stub "data.csv" "age" "salary"
           age_greater_than_30 age_greater_than_30 data_csv main_world
           main_world_data_csv Hne data_csv_has_age data_csv_has_salary
           data_csv_age_numeric data_csv_salary_numeric).
Defined.

(** ** What [create] can return *)

(** X16.  Whatever the state, the name and the arguments, an object that
    [create] returns is an [AnalysisOneStrategy] holding a source step
    followed by a filter step: the abstract base class is never
    instantiated, and no strategy object comes with another pipeline. *)
Theorem StrategyFactory_create_returns_analysis_one
    (n : string) (args : list value) (kwargs : gmap string value)
    (w : world) (inst : strategy) :
  fst (StrategyFactory_create n args kwargs w) = Ok inst ->
  ob_type inst = AnalysisOneStrategy /\
  exists filepath column condition_fn,
    inst = analysis_one filepath column condition_fn.
Proof.
  destruct (_registry w !! n) as [strategy_cls|] eqn:E.
  - rewrite (create_lookup_Some _ _ _ _ _ E). simpl.
    destruct strategy_cls; [discriminate|].
    unfold pyclass_call, AnalysisOneStrategy_init.
    destruct (bind_params _ args kwargs) as [vs|e]; [|discriminate].
    destruct vs as [|a [|b [|c [|d vs]]]]; try discriminate.
    intros [= <-]. split; [reflexivity|]. exists a, b, c. reflexivity.
  - rewrite (create_lookup_None _ _ _ _ E). discriminate.
Qed.

Lemma StrategyFactory_create_returns_analysis_one_witness :
  fst (StrategyFactory_create "analysis_one"
         [VStr "data.csv"; VStr "age"; VFun age_greater_than_30] ∅ main_world) =
    Ok (analysis_one (VStr "data.csv") (VStr "age") (VFun age_greater_than_30)) /\
  ob_type (analysis_one (VStr "data.csv") (VStr "age") (VFun age_greater_than_30)) =
    AnalysisOneStrategy.
Proof.
  assert (E : fst (StrategyFactory_create "analysis_one"
                     [VStr "data.csv"; VStr "age"; VFun age_greater_than_30] ∅ main_world) =
              Ok (analysis_one (VStr "data.csv") (VStr "age") (VFun age_greater_than_30)))
    by (vm_compute; reflexivity).
  split; [exact E|].
  exact (proj1 (StrategyFactory_create_returns_analysis_one _ _ _ _ _ E)).
Defined.
